(** * safety_eval: the adversarial safety-evaluation driver

    A shallow embedding of [src/evaluations/safety_eval.py]: the responder
    adapter [callback] and the batch driver [main].  Everything the script
    delegates to the SDK (chat function, simulator, evaluators, credential,
    clock) is an oracle of the record [SDK]; the script's own control flow,
    its mutations of shared objects and its console output are modelled
    here, in a state-and-exception monad over a [World]. *)

From stdpp Require Import gmap strings list fin_maps.
From Stdlib Require Import Ascii.

Set Default Proof Using "Type".

(** ** Python values the script handles *)

(** Instances of Python's [Exception], the class every handler of the script
    names; [exn_str] is what an f-string prints for [{e}]. *)
Record Exn := { exn_class : string; exn_str : string }.

(** Result of an SDK call: a value, or a raised exception. *)
Inductive Result (A : Type) :=
| Ok (a : A)
| Raise (e : Exn).
Arguments Ok {A} a.
Arguments Raise {A} e.

(** Values stored in the [azure_ai_project] dictionary. *)
Inductive PyVal :=
| VStr (s : string)
| VDefaultAzureCredential.

(** An untyped pass-through value ([session_state: Any]). *)
Inductive PyAny :=
| PyNone
| PyObj (tag : string).

(** One message of the OpenAI message protocol. *)
Record Message := {
  content : string;
  role : string;
  context : option (gmap string string);
}.

(** References into the store of mutable objects. *)
Definition loc := nat.

(** Mutable objects: dictionaries and message lists. *)
Inductive Obj :=
| ODict (d : gmap string PyVal)
| OList (l : list Message).

Definition Heap := list Obj.

(** The envelope the simulator hands to [callback] (its parameter
    [messages]): [messages] refers to the shared message list,
    [template_parameters] holds the text fields of the prompt template. *)
Record Envelope := {
  messages : loc;
  template_parameters : gmap string string;
}.

(** The dictionary [callback] returns. *)
Record CallbackResult := {
  res_messages : loc;
  res_stream : bool;
  res_session_state : PyAny;
}.

(** What [get_response] returns: a dictionary read at ['answer']. *)
Record Response := { answer : string }.

(** ** Objects of the SDK *)

Inductive AdversarialScenario :=
| ADVERSARIAL_QA
| ADVERSARIAL_CONVERSATION
| ADVERSARIAL_SUMMARIZATION
| ADVERSARIAL_REWRITE.

Inductive EvaluatorKind :=
| SexualEvaluator
| SelfHarmEvaluator
| HateUnfairnessEvaluator
| ViolenceEvaluator.

(** An evaluator keeps the reference to the project dictionary it was
    constructed with. *)
Record Evaluator := { ev_kind : EvaluatorKind; ev_project : loc }.

(** So does the simulator. *)
Record Simulator := { sim_project : loc }.

(** Functions of the script that are passed as values. *)
Inductive Callable :=
| fn_callback.

(** Keyword arguments of one simulator call; an absent keyword is [None]. *)
Record SimKwargs := {
  scenario : AdversarialScenario;
  target : Callable;
  max_conversation_turns : option nat;
  max_simulation_results : option nat;
  jailbreak : option bool;
}.

(** What the simulator yields: a list of conversations. *)
Definition Outputs := list (list Message).

(** Keyword arguments of one [evaluate] call. *)
Record EvalKwargs := {
  evaluation_name : string;
  data : string;
  evaluators : list (string * Evaluator);
  azure_ai_project : option loc;
  output_path : string;
}.

(** The score report [evaluate] returns; the script never reads it. *)
Record EvalResult := { metrics : list (string * string) }.

Record DateTime := {
  year : nat; month : nat; day : nat;
  hour : nat; minute : nat; second : nat;
}.

Record AzureConfig := {
  aoai_endpoint : string;
  aoai_api_key : string;
  location : string;
  subscription_id : string;
  resource_group : string;
  workspace_name : string;
}.

(** ** Observable events

    Calls that leave the script, with their arguments, the store as it
    stands when the call is made (what the callee sees through the
    references it holds) and the outcome; and lines written to the
    console. *)
Inductive Event :=
| EvPrint (line : string)
| EvGetResponse (query : string) (history : list Message) (r : Result Response)
| EvEvaluatorInit (k : EvaluatorKind) (project : loc) (h : Heap) (r : Result Evaluator)
| EvDefaultAzureCredential (r : Result PyVal)
| EvSimulatorInit (project : loc) (h : Heap) (r : Result Simulator)
| EvSimulate (sim : Simulator) (kw : SimKwargs) (h : Heap) (r : Result Outputs)
| EvToEvalQaJsonLines (o : Outputs) (r : Result string)
| EvNow (d : DateTime)
| EvEvaluate (kw : EvalKwargs) (h : Heap) (r : Result EvalResult).

(** ** The world *)

Record World := {
  trace : list Event;                 (* oldest event first *)
  environ : gmap string string;       (* os.environ *)
  heap : Heap;
}.

(** The SDK as oracles.  Each sees the whole world at the time of the call
    (so an outcome may depend on everything that happened before) but
    cannot write to it: the script's objects are only changed by the
    script. *)
Record SDK := {
  sdk_azure_config : AzureConfig;     (* the object [AzureConfig()] yields *)
  sdk_get_response : World → string → list Message → Result Response;
  sdk_evaluator_init : World → EvaluatorKind → loc → option Exn;
  sdk_default_azure_credential : World → option Exn;
  sdk_simulator_init : World → loc → option Exn;
  sdk_simulate : World → Simulator → SimKwargs → Result Outputs;
  sdk_to_eval_qa_json_lines : World → Outputs → Result string;
  sdk_now : World → DateTime;
  sdk_evaluate : World → EvalKwargs → Result EvalResult;
}.

(** ** The monad: state, exceptions and early [return] *)

Inductive Ctl (A : Type) :=
| Normal (a : A)       (* fell through to the next statement *)
| Returned             (* a [return] statement ended the function *)
| Raised (e : Exn).    (* an exception is propagating *)
Arguments Normal {A} a.
Arguments Returned {A}.
Arguments Raised {A} e.

Definition M (A : Type) : Type := World → Ctl A * World.

Global Instance M_ret : MRet M := λ A a w, (Normal a, w).

Global Instance M_bind : MBind M := λ A B f m w,
  match m w with
  | (Normal a, w') => f a w'
  | (Returned, w') => (Returned, w')
  | (Raised e, w') => (Raised e, w')
  end.

Definition py_return {A} : M A := λ w, (Returned, w).

Definition py_raise {A} (e : Exn) : M A := λ w, (Raised e, w).

(** [try: body / except Exception as e: handler e] *)
Definition try_except {A} (body : M A) (handler : Exn → M A) : M A := λ w,
  match body w with
  | (Raised e, w') => handler e w'
  | r => r
  end.

Definition log (ev : Event) (w : World) : World :=
  {| trace := trace w ++ [ev]; environ := environ w; heap := heap w |}.

Definition set_heap (h : Heap) (w : World) : World :=
  {| trace := trace w; environ := environ w; heap := h |}.

Definition set_environ (e : gmap string string) (w : World) : World :=
  {| trace := trace w; environ := e; heap := heap w |}.

Definition of_result {A} (r : Result A) : Ctl A :=
  match r with
  | Ok a => Normal a
  | Raise e => Raised e
  end.

(** An SDK call: ask the oracle, log the event, pass the outcome on. *)
Definition sdk_call {A} (oracle : World → Result A)
    (ev : Heap → Result A → Event) : M A := λ w,
  let r := oracle w in (of_result r, log (ev (heap w) r) w).

(** An SDK constructor: the oracle only decides whether it raises; the
    object it yields is the record of what it was constructed with. *)
Definition built {A} (obj : A) (o : option Exn) : Result A :=
  match o with
  | None => Ok obj
  | Some e => Raise e
  end.

Definition sdk_new {A} (obj : A) (oracle : World → option Exn)
    (ev : Heap → Result A → Event) : M A := λ w,
  let r := built obj (oracle w) in (of_result r, log (ev (heap w) r) w).

(** ** Python primitives *)

Definition nl : string := String "010"%char EmptyString.

Definition print (line : string) : M unit := λ w, (Normal (), log (EvPrint line) w).

(** [print(a, b)]: the two arguments separated by a space. *)
Definition print2 (a b : string) : M unit := print (a +:+ " " +:+ b).

(** [os.environ[k] = v], for a key and a value that are text without a
    NUL character, as the fields of a loaded configuration are taken to
    be; the assignment of anything else raises, which is not modelled. *)
Definition setenv (k v : string) : M unit := λ w,
  (Normal (), set_environ (<[k:=v]> (environ w)) w).

(** [os.getenv(k, default)] *)
Definition getenv (k default : string) : M string := λ w,
  (Normal (match environ w !! k with Some v => v | None => default end), w).

Definition TypeError : Exn := {| exn_class := "TypeError"; exn_str := "not subscriptable" |}.
Definition IndexError : Exn :=
  {| exn_class := "IndexError"; exn_str := "list index out of range" |}.

(** A dictionary display [{...}]: a new object in the store. *)
Definition new_dict (d : gmap string PyVal) : M loc := λ w,
  (Normal (length (heap w)), set_heap (heap w ++ [ODict d]) w).

(** [d[k] = v] on the dictionary at [l].  A reference that is not a
    dictionary has no counterpart in the script; the model raises there. *)
Definition dict_set (l : loc) (k : string) (v : PyVal) : M unit := λ w,
  match heap w !! l with
  | Some (ODict d) => (Normal (), set_heap (<[l := ODict (<[k:=v]> d)]> (heap w)) w)
  | _ => (Raised TypeError, w)
  end.

(** Reading the list at [l]. *)
Definition load_list (l : loc) : M (list Message) := λ w,
  match heap w !! l with
  | Some (OList ms) => (Normal ms, w)
  | _ => (Raised TypeError, w)
  end.

(** [xs[i]] *)
Definition py_index (xs : list Message) (i : nat) : M Message :=
  match xs !! i with
  | Some m => mret m
  | None => py_raise IndexError
  end.

(** [xs.append(m)] on the list at [l], in place. *)
Definition list_append (l : loc) (m : Message) : M unit := λ w,
  match heap w !! l with
  | Some (OList ms) => (Normal (), set_heap (<[l := OList (ms ++ [m])]> (heap w)) w)
  | _ => (Raised TypeError, w)
  end.

(** A Python [str] is held as its UTF-8 encoding.  A character (a code
    point) starts at every byte that is not a continuation byte
    [10xxxxxx]; the bits of an [ascii] are listed lowest first. *)
Definition is_continuation (c : ascii) : bool :=
  match c with
  | Ascii _ _ _ _ _ _ b6 b7 => b7 && negb b6
  end.


(** [s[:n]]: the first [n] characters, each with all its bytes. *)
Fixpoint str_take (n : nat) (s : string) : string :=
  match s with
  | EmptyString => EmptyString
  | String c rest =>
      if is_continuation c then String c (str_take n rest)
      else match n with
           | 0 => EmptyString
           | S n' => String c (str_take n' rest)
           end
  end.

Definition digit (d : nat) : ascii := ascii_of_nat (48 + d mod 10).

(** Two decimal digits, zero padded, of a number taken modulo 100. *)
Definition pad2 (n : nat) : string :=
  String (digit (n / 10)) (String (digit n) EmptyString).

(** [d.strftime("%y%m%d%H%M%S")] *)
Definition strftime_ymdHMS (d : DateTime) : string :=
  pad2 (year d) +:+ pad2 (month d) +:+ pad2 (day d) +:+
  pad2 (hour d) +:+ pad2 (minute d) +:+ pad2 (second d).

(** [repr] of a string without quotes or escapes, and of a list of such. *)
Definition repr_str (s : string) : string := "'" +:+ s +:+ "'".

Fixpoint join (sep : string) (xs : list string) : string :=
  match xs with
  | [] => EmptyString
  | [x] => x
  | x :: rest => x +:+ sep +:+ join sep rest
  end.

Definition repr_list (xs : list string) : string :=
  "[" +:+ join ", " (repr_str <$> xs) +:+ "]".

Section script.
Context (sdk : SDK).

(** *** Calls into the SDK *)

Definition get_response (query : string) (history : list Message) : M Response :=
  sdk_call (λ w, sdk_get_response sdk w query history)
           (λ _ r, EvGetResponse query history r).

Definition new_evaluator (k : EvaluatorKind) (project : loc) : M Evaluator :=
  sdk_new {| ev_kind := k; ev_project := project |}
          (λ w, sdk_evaluator_init sdk w k project)
          (λ h r, EvEvaluatorInit k project h r).

Definition DefaultAzureCredential : M PyVal :=
  sdk_new VDefaultAzureCredential (sdk_default_azure_credential sdk)
          (λ _ r, EvDefaultAzureCredential r).

Definition AdversarialSimulator (project : loc) : M Simulator :=
  sdk_new {| sim_project := project |}
          (λ w, sdk_simulator_init sdk w project)
          (λ h r, EvSimulatorInit project h r).

Definition call_simulator (sim : Simulator) (kw : SimKwargs) : M Outputs :=
  sdk_call (λ w, sdk_simulate sdk w sim kw) (λ h r, EvSimulate sim kw h r).

Definition to_eval_qa_json_lines (o : Outputs) : M string :=
  sdk_call (λ w, sdk_to_eval_qa_json_lines sdk w o) (λ _ r, EvToEvalQaJsonLines o r).

Definition datetime_now : M DateTime := λ w,
  let d := sdk_now sdk w in (Normal d, log (EvNow d) w).

Definition evaluate (kw : EvalKwargs) : M EvalResult :=
  sdk_call (λ w, sdk_evaluate sdk w kw) (λ h r, EvEvaluate kw h r).

(** *** [callback] (lines 19-45) *)

Definition callback (envelope : Envelope) (stream : bool) (session_state : PyAny)
    : M CallbackResult :=
  msgs ← load_list (messages envelope);
  first ← py_index msgs 0;
  let query := content first in
  (* Add file contents for summarization or re-write *)
  let query :=
    match template_parameters envelope !! "file_content" with
    | Some file_content => query +:+ file_content
    | None => query
    end in
  r ← get_response query [];
  let response := answer r in
  (* Format responses in OpenAI message protocol *)
  let formatted_response :=
    {| content := response; role := "assistant"; context := Some ∅ |} in
  list_append (messages envelope) formatted_response;;
  mret {| res_messages := messages envelope;
          res_stream := stream;
          res_session_state := session_state |}.

(** *** [main] (lines 47-184) *)

Definition valid_locations : list string :=
  ["eastus2"; "francecentral"; "uksouth"; "swedencentral"].

Definition main : M unit :=
  (* Read configuration *)
  let azure_config := sdk_azure_config sdk in
  (* Set required environment variables *)
  setenv "AZURE_OPENAI_ENDPOINT" (aoai_endpoint azure_config);;
  setenv "AZURE_OPENAI_API_KEY" (aoai_api_key azure_config);;
  (* Read environment variables *)
  let azure_location := location azure_config in
  let azure_subscription_id := subscription_id azure_config in
  let azure_resource_group := resource_group azure_config in
  let azure_project_name := workspace_name azure_config in
  print2 "AZURE_LOCATION=" azure_location;;
  print2 "AZURE_SUBSCRIPTION_ID=" azure_subscription_id;;
  print2 "AZURE_RESOURCE_GROUP=" azure_resource_group;;
  print2 "AZUREAI_PROJECT_NAME=" azure_project_name;;
  (if bool_decide (azure_location ∉ valid_locations) then
     print ("Invalid AZURE_LOCATION: " +:+ azure_location +:+ ". Must be one of "
            +:+ repr_list valid_locations +:+ ".");;
     py_return
   else mret ());;
  (* Import the built-in safety evaluators *)
  azure_ai_project ← new_dict (<["project_name" := VStr azure_project_name]>
                      (<["resource_group_name" := VStr azure_resource_group]>
                       (<["subscription_id" := VStr azure_subscription_id]> ∅)));
  sexual_evaluator ← new_evaluator SexualEvaluator azure_ai_project;
  self_harm_evaluator ← new_evaluator SelfHarmEvaluator azure_ai_project;
  hate_unfairness_evaluator ← new_evaluator HateUnfairnessEvaluator azure_ai_project;
  violence_evaluator ← new_evaluator ViolenceEvaluator azure_ai_project;
  let scenario := ADVERSARIAL_QA in
  credential ← DefaultAzureCredential;
  dict_set azure_ai_project "credential" credential;;
  simulator ← AdversarialSimulator azure_ai_project;
  (* Try/except block for simulator (without jailbreak) *)
  adversarial_conversation_result ←
    try_except
      (outputs ← call_simulator simulator
                   {| scenario := scenario;
                      target := fn_callback;
                      max_conversation_turns := Some 1;
                      max_simulation_results := Some 10;
                      jailbreak := Some false |};
       adversarial_conversation_result ← to_eval_qa_json_lines outputs;
       print ("Adversarial conversation results: "
              +:+ adversarial_conversation_result +:+ ".");;
       mret adversarial_conversation_result)
      (λ e,
       print ("❌ Failed to run adversarial simulation (non-jailbreak): " +:+ exn_str e);;
       py_return);
  now ← datetime_now;
  prefix_value ← getenv "PREFIX" (strftime_ymdHMS now);
  let prefix := str_take 14 prefix_value in
  let the_evaluators :=
    [("sexual", sexual_evaluator);
     ("self_harm", self_harm_evaluator);
     ("hate_unfairness", hate_unfairness_evaluator);
     ("violence", violence_evaluator)] in
  (* Try/except block for adversarial_eval_result *)
  adversarial_eval_result ←
    try_except
      (dict_set azure_ai_project "credential" (VStr EmptyString);;
       evaluate {| evaluation_name := prefix +:+ " Adversarial Tests";
                   data := adversarial_conversation_result;
                   evaluators := the_evaluators;
                   azure_ai_project := Some azure_ai_project;
                   output_path := "./adversarial_test.json" |})
      (λ e,
       print ("⚠️ An error occurred during evaluation: " +:+ exn_str e +:+ nl
              +:+ "Retrying without reporting results in Azure AI Project.");;
       try_except
         (evaluate {| evaluation_name := prefix +:+ " Adversarial Tests";
                      data := adversarial_conversation_result;
                      evaluators := the_evaluators;
                      azure_ai_project := None;
                      output_path := "./adversarial_test.json" |})
         (λ inner_e,
          print ("❌ Retried evaluation failed: " +:+ exn_str inner_e);;
          py_return));
  (* Try/except block for simulator (with jailbreak) *)
  adversarial_conversation_result_w_jailbreak ←
    try_except
      (jb_outputs ← call_simulator simulator
                      {| scenario := scenario;
                         target := fn_callback;
                         max_conversation_turns := None;
                         max_simulation_results := Some 10;
                         jailbreak := Some true |};
       adversarial_conversation_result_w_jailbreak ← to_eval_qa_json_lines jb_outputs;
       print ("Adversarial conversation w/ jailbreak results: "
              +:+ adversarial_conversation_result_w_jailbreak +:+ ".");;
       mret adversarial_conversation_result_w_jailbreak)
      (λ e,
       print ("❌ Failed to run adversarial simulation (jailbreak): " +:+ exn_str e);;
       py_return);
  (* Try/except block for adversarial_eval_w_jailbreak_result *)
  adversarial_eval_w_jailbreak_result ←
    try_except
      (evaluate {| evaluation_name := prefix +:+ " Adversarial Tests w/ Jailbreak";
                   data := adversarial_conversation_result_w_jailbreak;
                   evaluators := the_evaluators;
                   azure_ai_project := Some azure_ai_project;
                   output_path := "./adversarial_test_w_jailbreak.json" |})
      (λ e,
       print ("⚠️ An error occurred during jailbreak evaluation: " +:+ exn_str e +:+ nl
              +:+ "Retrying without reporting results in Azure AI Project.");;
       try_except
         (evaluate {| evaluation_name := prefix +:+ " Adversarial Tests w/ Jailbreak";
                      data := adversarial_conversation_result_w_jailbreak;
                      evaluators := the_evaluators;
                      azure_ai_project := None;
                      output_path := "./adversarial_test_w_jailbreak.json" |})
         (λ inner_e,
          print ("❌ Retried jailbreak evaluation failed: " +:+ exn_str inner_e);;
          py_return));
  print ("Check " +:+ prefix +:+ " Adversarial Tests results in the 'Evaluation' section of your project: "
         +:+ workspace_name azure_config +:+ ".").

End script.

(** ** Running the script *)

Definition initial_world (env : gmap string string) (h : Heap) : World :=
  {| trace := []; environ := env; heap := h |}.

(** One run of [main], from an empty trace, in the environment [env] and
    with the objects [h] already in the store. *)
Definition run_main (sdk : SDK) (env : gmap string string) (h : Heap) : Ctl unit * World :=
  main sdk (initial_world env h).

Definition main_trace (sdk : SDK) (env : gmap string string) (h : Heap) : list Event :=
  trace (run_main sdk env h).2.

(** ** Observations on traces and stores *)

(** The most recent user message of a conversation, as the specification
    words it: the last message whose role is [user]. *)
Definition most_recent_user_content (ms : list Message) : option string :=
  content <$> last (filter (λ m, role m = "user") ms).

(** The evaluate keywords with the cloud-project binding removed. *)
Definition without_project (kw : EvalKwargs) : EvalKwargs :=
  {| evaluation_name := evaluation_name kw;
     data := data kw;
     evaluators := evaluators kw;
     azure_ai_project := None;
     output_path := output_path kw |}.

(** The submissions without project binding that write to [path]. *)
Fixpoint fallback_submissions (path : string) (tr : list Event) : list EvalKwargs :=
  match tr with
  | [] => []
  | EvEvaluate kw _ _ :: rest =>
      match azure_ai_project kw with
      | None =>
          if bool_decide (output_path kw = path)
          then kw :: fallback_submissions path rest
          else fallback_submissions path rest
      | Some _ => fallback_submissions path rest
      end
  | _ :: rest => fallback_submissions path rest
  end.

(** The keyword arguments of the simulator calls, in order. *)
Fixpoint simulate_calls (tr : list Event) : list SimKwargs :=
  match tr with
  | [] => []
  | EvSimulate _ kw _ _ :: rest => kw :: simulate_calls rest
  | _ :: rest => simulate_calls rest
  end.

(** The [evaluate] submissions, in order, each with its outcome. *)
Fixpoint submissions (tr : list Event) : list (EvalKwargs * Result EvalResult) :=
  match tr with
  | [] => []
  | EvEvaluate kw _ r :: rest => (kw, r) :: submissions rest
  | _ :: rest => submissions rest
  end.

Definition is_evaluate (ev : Event) : bool :=
  match ev with
  | EvEvaluate _ _ _ => true
  | _ => false
  end.

(** The readings of the clock, in order. *)
Fixpoint clock_reads (tr : list Event) : list DateTime :=
  match tr with
  | [] => []
  | EvNow d :: rest => d :: clock_reads rest
  | _ :: rest => clock_reads rest
  end.

(** The places of a list where [f] holds, each with what comes before and
    what comes after; [acc] is what was already walked over. *)
Fixpoint occurrences {A} (f : A → bool) (acc l : list A) : list (list A * A * list A) :=
  match l with
  | [] => []
  | x :: rest =>
      (if f x then [(acc, x, rest)] else []) ++ occurrences f (acc ++ [x]) rest
  end.

Definition raising_evaluate (ev : Event) : bool :=
  match ev with
  | EvEvaluate _ _ (Raise _) => true
  | _ => false
  end.

Definition raising_simulate (ev : Event) : bool :=
  match ev with
  | EvSimulate _ _ _ (Raise _) => true
  | _ => false
  end.

Definition has_snapshot (ev : Event) : bool :=
  match ev with
  | EvEvaluatorInit _ _ _ _ | EvSimulatorInit _ _ _
  | EvSimulate _ _ _ _ | EvEvaluate _ _ _ => true
  | _ => false
  end.

(** Calls that leave the process: everything but console output. *)
Definition is_sdk_call (ev : Event) : bool :=
  match ev with
  | EvPrint _ => false
  | _ => true
  end.

(** The store a call was made in, for the calls that take a reference. *)
Definition snapshot (ev : Event) : option Heap :=
  match ev with
  | EvEvaluatorInit _ _ h _ | EvSimulatorInit _ h _
  | EvSimulate _ _ h _ | EvEvaluate _ h _ => Some h
  | _ => None
  end.

(** The references to mutable objects a call passes or holds. *)
Definition references (ev : Event) : list loc :=
  match ev with
  | EvEvaluatorInit _ l _ _ | EvSimulatorInit l _ _ => [l]
  | EvSimulate sim _ _ _ => [sim_project sim]
  | EvEvaluate kw _ _ =>
      option_list (azure_ai_project kw) ++ ((ev_project ∘ snd) <$> evaluators kw)
  | _ => []
  end.

(** The [credential] entry of the dictionary at [l] in the store [h]. *)
Definition credential_at (h : Heap) (l : loc) : option PyVal :=
  match h !! l with
  | Some (ODict d) => d !! "credential"
  | _ => None
  end.







(** The calls made inside a [try] that raised: simulator call, conversion
    to JSON lines, [evaluate]. *)
Definition raising_in_try (ev : Event) : bool :=
  match ev with
  | EvSimulate _ _ _ (Raise _) | EvToEvalQaJsonLines _ (Raise _)
  | EvEvaluate _ _ (Raise _) => true
  | _ => false
  end.

(** The run prefix of line 103, for a run started in the environment
    [env] whose clock reading is [now]. *)
Definition run_prefix (env : gmap string string) (now : DateTime) : string :=
  str_take 14 (default (strftime_ymdHMS now) (env !! "PREFIX")).

(** The four console lines that echo the configuration. *)
Definition config_banner (cfg : AzureConfig) : list Event :=
  [EvPrint ("AZURE_LOCATION= " +:+ location cfg);
   EvPrint ("AZURE_SUBSCRIPTION_ID= " +:+ subscription_id cfg);
   EvPrint ("AZURE_RESOURCE_GROUP= " +:+ resource_group cfg);
   EvPrint ("AZUREAI_PROJECT_NAME= " +:+ workspace_name cfg)].

(** The project dictionary as [main] first builds it (lines 74-78). *)
Definition project_dict (cfg : AzureConfig) : gmap string PyVal :=
  <["project_name" := VStr (workspace_name cfg)]>
    (<["resource_group_name" := VStr (resource_group cfg)]>
      (<["subscription_id" := VStr (subscription_id cfg)]> ∅)).

(** The exception an SDK call ended with, if it raised. *)
Definition raised_by (ev : Event) : option Exn :=
  match ev with
  | EvGetResponse _ _ (Raise e) | EvEvaluatorInit _ _ _ (Raise e)
  | EvDefaultAzureCredential (Raise e) | EvSimulatorInit _ _ (Raise e)
  | EvSimulate _ _ _ (Raise e) | EvToEvalQaJsonLines _ (Raise e)
  | EvEvaluate _ _ (Raise e) => Some e
  | _ => None
  end.

(** The constructor calls of lines 79-86 that raised. *)
Definition raising_constructor (ev : Event) : bool :=
  match ev with
  | EvEvaluatorInit _ _ _ (Raise _) | EvDefaultAzureCredential (Raise _)
  | EvSimulatorInit _ _ (Raise _) => true
  | _ => false
  end.

Definition raising_conversion (ev : Event) : bool :=
  match ev with
  | EvToEvalQaJsonLines _ (Raise _) => true
  | _ => false
  end.

Definition successful_evaluate (ev : Event) : bool :=
  match ev with
  | EvEvaluate _ _ (Ok _) => true
  | _ => false
  end.

(** The simulator calls, in order, each with its outcome. *)
Fixpoint simulations (tr : list Event) : list (SimKwargs * Result Outputs) :=
  match tr with
  | [] => []
  | EvSimulate _ kw _ r :: rest => (kw, r) :: simulations rest
  | _ :: rest => simulations rest
  end.

(** The conversions to JSON lines, in order: what was converted, and the
    outcome. *)
Fixpoint conversions (tr : list Event) : list (Outputs * Result string) :=
  match tr with
  | [] => []
  | EvToEvalQaJsonLines o r :: rest => (o, r) :: conversions rest
  | _ :: rest => conversions rest
  end.

(** The output files of the submissions that succeeded, in order. *)
Fixpoint successful_paths (tr : list Event) : list string :=
  match tr with
  | [] => []
  | EvEvaluate kw _ (Ok _) :: rest => output_path kw :: successful_paths rest
  | _ :: rest => successful_paths rest
  end.

(** The evaluators dictionary of lines 111-116, over evaluators built on
    the dictionary at [l]. *)
Definition four_evaluators (l : loc) : list (string * Evaluator) :=
  [("sexual", {| ev_kind := SexualEvaluator; ev_project := l |});
   ("self_harm", {| ev_kind := SelfHarmEvaluator; ev_project := l |});
   ("hate_unfairness", {| ev_kind := HateUnfairnessEvaluator; ev_project := l |});
   ("violence", {| ev_kind := ViolenceEvaluator; ev_project := l |})].


(** ** Sample runs *)

Definition sample_config (loc : string) : AzureConfig :=
  {| aoai_endpoint := "https://aoai.example";
     aoai_api_key := "secret";
     location := loc;
     subscription_id := "sub-1";
     resource_group := "rg-1";
     workspace_name := "proj-1" |}.

Definition sample_exn (msg : string) : Exn :=
  {| exn_class := "RuntimeError"; exn_str := msg |}.

Definition sample_outputs : Outputs :=
  [[{| content := "adversarial question"; role := "user"; context := None |};
    {| content := "I cannot help with that."; role := "assistant"; context := Some ∅ |}]].

Definition sample_now : DateTime :=
  {| year := 2024; month := 6; day := 7; hour := 8; minute := 9; second := 10 |}.

(** An SDK whose constructors succeed, whose simulator raises on the calls
    picked by [sim_raises] and whose [evaluate] raises on the calls picked
    by [eval_raises]. *)
Definition sample_sdk (loc : string) (sim_raises : SimKwargs → bool)
    (eval_raises : EvalKwargs → bool) : SDK :=
  {| sdk_azure_config := sample_config loc;
     sdk_get_response := λ _ query _, Ok {| answer := "echo: " +:+ query |};
     sdk_evaluator_init := λ _ _ _, None;
     sdk_default_azure_credential := λ _, None;
     sdk_simulator_init := λ _ _, None;
     sdk_simulate := λ _ _ kw,
       if sim_raises kw then Raise (sample_exn "simulator down") else Ok sample_outputs;
     sdk_to_eval_qa_json_lines := λ _ _, Ok "jsonl";
     sdk_now := λ _, sample_now;
     sdk_evaluate := λ _ kw,
       if eval_raises kw then Raise (sample_exn "evaluation failed")
       else Ok {| metrics := [] |} |}.

Definition never {A} (_ : A) : bool := false.

(** The first submission of a phase: the one bound to the project. *)
Definition bound_to_project (kw : EvalKwargs) : bool :=
  bool_decide (is_Some (azure_ai_project kw)).

Definition is_jailbreak (kw : SimKwargs) : bool :=
  bool_decide (jailbreak kw = Some true).

Definition always {A} (_ : A) : bool := true.

(** The objects of a sample run that starts with an empty store: the
    project dictionary sits at reference 0. *)
Definition sample_evaluators : list (string * Evaluator) :=
  [("sexual", {| ev_kind := SexualEvaluator; ev_project := 0 |});
   ("self_harm", {| ev_kind := SelfHarmEvaluator; ev_project := 0 |});
   ("hate_unfairness", {| ev_kind := HateUnfairnessEvaluator; ev_project := 0 |});
   ("violence", {| ev_kind := ViolenceEvaluator; ev_project := 0 |})].

Definition sample_store (credential : PyVal) : Heap :=
  [ODict (<["credential" := credential]> (project_dict (sample_config "uksouth")))].

Definition sample_submission (name : string) : EvalKwargs :=
  {| evaluation_name := name;
     data := "jsonl";
     evaluators := sample_evaluators;
     azure_ai_project := Some 0;
     output_path := "./adversarial_test.json" |}.

Definition sample_jailbreak_call : SimKwargs :=
  {| scenario := ADVERSARIAL_QA;
     target := fn_callback;
     max_conversation_turns := None;
     max_simulation_results := Some 10;
     jailbreak := Some true |}.

(** A conversation of three messages, the first and the last from the user. *)
Definition sample_conversation : list Message :=
  [{| content := "first question"; role := "user"; context := None |};
   {| content := "first answer"; role := "assistant"; context := Some ∅ |};
   {| content := "follow-up question"; role := "user"; context := None |}].

Definition sample_world (ms : list Message) : World :=
  {| trace := []; environ := ∅; heap := [OList ms] |}.

Definition sample_envelope (tp : gmap string string) : Envelope :=
  {| messages := 0; template_parameters := tp |}.

(** An SDK in which one more thing may go wrong: the chat function, the
    credential or the conversion to JSON lines. *)
Definition broken_sdk (chat_down credential_down conversion_down : bool) : SDK :=
  {| sdk_azure_config := sample_config "uksouth";
     sdk_get_response := λ _ query _,
       if chat_down then Raise (sample_exn "chat down")
       else Ok {| answer := "echo: " +:+ query |};
     sdk_evaluator_init := λ _ _ _, None;
     sdk_default_azure_credential := λ _,
       if credential_down then Some (sample_exn "no credential") else None;
     sdk_simulator_init := λ _ _, None;
     sdk_simulate := λ _ _ _, Ok sample_outputs;
     sdk_to_eval_qa_json_lines := λ _ _,
       if conversion_down then Raise (sample_exn "not convertible") else Ok "jsonl";
     sdk_now := λ _, sample_now;
     sdk_evaluate := λ _ _, Ok {| metrics := [] |} |}.

Definition sample_baseline_call : SimKwargs :=
  {| scenario := ADVERSARIAL_QA;
     target := fn_callback;
     max_conversation_turns := Some 1;
     max_simulation_results := Some 10;
     jailbreak := Some false |}.

(** * Properties of [callback] *)

Section callback_properties.
Context (sdk : SDK).

(** What one invocation of [callback] does on a conversation that has a
    first message. *)
Lemma callback_run envelope stream session_state w m ms :
  heap w !! messages envelope = Some (OList (m :: ms)) →
  let query :=
    match template_parameters envelope !! "file_content" with
    | Some file_content => content m +:+ file_content
    | None => content m
    end in
  callback sdk envelope stream session_state w =
    match sdk_get_response sdk w query [] with
    | Ok r =>
        (Normal {| res_messages := messages envelope;
                   res_stream := stream;
                   res_session_state := session_state |},
         {| trace := trace w ++ [EvGetResponse query [] (Ok r)];
            environ := environ w;
            heap := <[messages envelope :=
                        OList ((m :: ms) ++ [{| content := answer r;
                                                role := "assistant";
                                                context := Some ∅ |}])]> (heap w) |})
    | Raise e => (Raised e, log (EvGetResponse query [] (Raise e)) w)
    end.
Proof.
  intros Hlist query.
  unfold callback, mbind, M_bind, load_list. rewrite Hlist.
  cbn [py_index lookup list_lookup mret M_ret].
  fold query. unfold get_response, sdk_call.
  destruct (sdk_get_response sdk w query []) as [r|e]; cbn [of_result]; [|done].
  unfold list_append. cbn [heap log]. by rewrite Hlist.
Qed.

(** On an empty conversation [messages[0]] raises before anything else
    happens. *)
Lemma callback_empty envelope stream session_state w :
  heap w !! messages envelope = Some (OList []) →
  callback sdk envelope stream session_state w = (Raised IndexError, w).
Proof.
  intros Hlist. unfold callback, mbind, M_bind, load_list. by rewrite Hlist.
Qed.

(** When the chat function raises, the exception leaves [callback] and
    the conversation is as it was. *)
Lemma callback_propagates envelope stream session_state w ms q hist e :
  heap w !! messages envelope = Some (OList ms) →
  trace (callback sdk envelope stream session_state w).2
    = trace w ++ [EvGetResponse q hist (Raise e)] →
  (callback sdk envelope stream session_state w).1 = Raised e ∧
  heap (callback sdk envelope stream session_state w).2 = heap w.
Proof.
  intros Hlist. destruct ms as [|m ms].
  - rewrite (callback_empty _ _ _ _ Hlist). cbn [snd].
    intros Htr. apply (f_equal length) in Htr.
    rewrite length_app in Htr. cbn in Htr. lia.
  - rewrite (callback_run _ _ _ _ _ _ Hlist).
    destruct (sdk_get_response sdk w _ []) as [r|e']; cbn [snd fst trace log heap].
    + intros Htr. by apply app_inv_head in Htr.
    + intros Htr. apply app_inv_head in Htr. by simplify_eq.
Qed.

(** C5: without a [file_content] template parameter, the one call to the
    chat function carries the first message's content, unchanged, as the
    query and the empty list as the history. *)
Theorem callback_query_without_file_content envelope stream session_state w m ms :
  heap w !! messages envelope = Some (OList (m :: ms)) →
  template_parameters envelope !! "file_content" = None →
  trace (callback sdk envelope stream session_state w).2
    = trace w ++ [EvGetResponse (content m) [] (sdk_get_response sdk w (content m) [])].
Proof.
  intros Hlist Hnone.
  rewrite (callback_run _ _ _ _ _ _ Hlist), Hnone.
  by destruct (sdk_get_response sdk w (content m) []).
Qed.

(** C6: with a [file_content] template parameter, the query of the one
    call to the chat function is the first message's content followed by
    the file content. *)
Theorem callback_query_with_file_content envelope stream session_state w m ms file_content :
  heap w !! messages envelope = Some (OList (m :: ms)) →
  template_parameters envelope !! "file_content" = Some file_content →
  trace (callback sdk envelope stream session_state w).2
    = trace w ++ [EvGetResponse (content m +:+ file_content) []
                    (sdk_get_response sdk w (content m +:+ file_content) [])].
Proof.
  intros Hlist Hsome.
  rewrite (callback_run _ _ _ _ _ _ Hlist), Hsome.
  by destruct (sdk_get_response sdk w (content m +:+ file_content) []).
Qed.

(** C4, as amended: the query is built from the content of the message at
    index 0 of the list, whatever its role and however many messages
    follow; where that message is from the user and no later one is, it
    is the most recent user message. *)
Theorem callback_query_is_first_message envelope stream session_state w m ms :
  heap w !! messages envelope = Some (OList (m :: ms)) →
  ∃ query r,
    trace (callback sdk envelope stream session_state w).2
      = trace w ++ [EvGetResponse query [] r] ∧
    (template_parameters envelope !! "file_content" = None → query = content m) ∧
    (∀ file_content,
       template_parameters envelope !! "file_content" = Some file_content →
       query = content m +:+ file_content) ∧
    (role m = "user" → Forall (λ m', role m' ≠ "user") ms →
     most_recent_user_content (m :: ms) = Some (content m)).
Proof.
  intros Hlist. rewrite (callback_run _ _ _ _ _ _ Hlist). cbv zeta.
  set (q := match template_parameters envelope !! "file_content" with
            | Some file_content => content m +:+ file_content
            | None => content m
            end).
  exists q, (sdk_get_response sdk w q []). split; [|split; [|split]].
  - by destruct (sdk_get_response sdk w q []).
  - intros Hnone. subst q. by rewrite Hnone.
  - intros fc Hsome. subst q. by rewrite Hsome.
  - intros Hm Hms. unfold most_recent_user_content.
    rewrite filter_cons_True by done.
    replace (filter (λ m0, role m0 = "user") ms) with (@nil Message); [done|].
    symmetry. clear Hlist q. induction Hms as [|m' ms' Hm' _ IH]; [done|].
    rewrite filter_cons_False by done. apply IH.
Qed.

(** C7: an invocation whose chat call answers [r] returns normally; it
    has appended to the message list, in place, exactly one message, of
    role [assistant], with the answer as content and an empty context;
    the messages that were there are kept as they were; no other object
    is touched; the returned dictionary refers to that same list and
    passes [stream] and [session_state] through. *)
Theorem callback_appends_one_assistant_message
    envelope stream session_state w ms q hist r :
  heap w !! messages envelope = Some (OList ms) →
  trace (callback sdk envelope stream session_state w).2
    = trace w ++ [EvGetResponse q hist (Ok r)] →
  ∃ w',
    callback sdk envelope stream session_state w
      = (Normal {| res_messages := messages envelope;
                   res_stream := stream;
                   res_session_state := session_state |}, w') ∧
    heap w' !! messages envelope
      = Some (OList (ms ++ [{| content := answer r;
                               role := "assistant";
                               context := Some ∅ |}])) ∧
    (∀ l, l ≠ messages envelope → heap w' !! l = heap w !! l) ∧
    length (heap w') = length (heap w) ∧
    environ w' = environ w.
Proof.
  intros Hlist. destruct ms as [|m ms].
  - rewrite (callback_empty _ _ _ _ Hlist). cbn [snd].
    intros Htr. apply (f_equal length) in Htr.
    rewrite length_app in Htr. cbn in Htr. lia.
  - rewrite (callback_run _ _ _ _ _ _ Hlist).
    destruct (sdk_get_response sdk w _ []) as [r'|e]; cbn [snd trace log].
    + intros Htr. apply app_inv_head in Htr. simplify_eq.
      eexists. split; [done|]. cbn [heap environ].
      split; [|split; [|split]].
      * apply list_lookup_insert_eq. by eapply lookup_lt_Some.
      * intros l Hl. by apply list_lookup_insert_ne.
      * apply length_insert.
      * done.
    + intros Htr. by apply app_inv_head in Htr.
Qed.

End callback_properties.

(** C4, as stated, fails: on a conversation whose first and last messages
    are both from the user, the query sent to the chat function is the
    first one, not the most recent one. *)
Lemma callback_query_not_most_recent :
  trace (callback (sample_sdk "uksouth" never never) (sample_envelope ∅)
           false PyNone (sample_world sample_conversation)).2
    = [EvGetResponse "first question" [] (Ok {| answer := "echo: first question" |})] ∧
  most_recent_user_content sample_conversation = Some "follow-up question" ∧
  most_recent_user_content sample_conversation ≠ Some "first question".
Proof. split; [|split]; [vm_compute; reflexivity..|discriminate]. Qed.

Lemma callback_query_without_file_content_witness :
  trace (callback (sample_sdk "uksouth" never never) (sample_envelope ∅)
           false PyNone (sample_world sample_conversation)).2
    = [EvGetResponse "first question" [] (Ok {| answer := "echo: first question" |})].
Proof.
  apply (callback_query_without_file_content (sample_sdk "uksouth" never never)
           (sample_envelope ∅) false PyNone (sample_world sample_conversation)
           {| content := "first question"; role := "user"; context := None |}
           (tail sample_conversation)); reflexivity.
Defined.

Lemma callback_query_with_file_content_witness :
  trace (callback (sample_sdk "uksouth" never never)
           (sample_envelope {["file_content" := " [attached text]"]})
           false PyNone (sample_world sample_conversation)).2
    = [EvGetResponse "first question [attached text]" []
         (Ok {| answer := "echo: first question [attached text]" |})].
Proof.
  apply (callback_query_with_file_content (sample_sdk "uksouth" never never)
           (sample_envelope {["file_content" := " [attached text]"]})
           false PyNone (sample_world sample_conversation)
           {| content := "first question"; role := "user"; context := None |}
           (tail sample_conversation) " [attached text]"); [reflexivity|].
  vm_compute. reflexivity.
Defined.

(** * Properties of [main] *)

(** ** Stepping through a run *)

Lemma lookup_fresh (h : Heap) (o : Obj) : (h ++ [o]) !! length h = Some o.
Proof. rewrite lookup_app_r by lia. by rewrite Nat.sub_diag. Qed.

Lemma insert_fresh (h : Heap) (o o' : Obj) : <[length h := o']> (h ++ [o]) = h ++ [o'].
Proof. rewrite insert_app_r_alt by lia. by rewrite Nat.sub_diag. Qed.

(** Assigning into the dictionary allocated last. *)
Lemma dict_set_fresh t e (h : Heap) d k v :
  dict_set (length h) k v {| trace := t; environ := e; heap := h ++ [ODict d] |}
  = (Normal (), {| trace := t; environ := e; heap := h ++ [ODict (<[k:=v]> d)] |}).
Proof.
  unfold dict_set, set_heap; cbn [heap trace environ].
  by rewrite lookup_fresh, insert_fresh.
Qed.

(** [main] sets two variables, neither of them [PREFIX]. *)
Lemma getenv_prefix (env : gmap string string) (a b d : string) t hp :
  getenv "PREFIX" d
    {| trace := t;
       environ := <["AZURE_OPENAI_API_KEY" := a]> (<["AZURE_OPENAI_ENDPOINT" := b]> env);
       heap := hp |}
  = (Normal (default d (env !! "PREFIX")),
     {| trace := t;
        environ := <["AZURE_OPENAI_API_KEY" := a]> (<["AZURE_OPENAI_ENDPOINT" := b]> env);
        heap := hp |}).
Proof.
  unfold getenv; cbn [environ].
  rewrite !lookup_insert_ne by done. by destruct (env !! "PREFIX").
Qed.

Ltac unfold_script :=
  unfold main_trace, run_main, main, initial_world;
  unfold new_evaluator, DefaultAzureCredential, AdversarialSimulator, call_simulator,
    to_eval_qa_json_lines, evaluate;
  unfold mbind, M_bind, mret, M_ret, try_except, py_return, print2, print, setenv,
    new_dict, log, set_heap, set_environ.

Ltac simpl_world := cbn [trace environ heap fst snd app of_result built].

(** One step of a run: the next SDK call is split into its outcomes, the
    next assignment or lookup is carried out. *)
Ltac step :=
  simpl_world;
  lazymatch goal with
  | |- context [sdk_new ?obj ?o ?ev ?w] =>
      change (sdk_new obj o ev w)
        with (of_result (built obj (o w)), log (ev (heap w) (built obj (o w))) w);
      generalize (o w); intros [?e|]; unfold log
  | |- context [sdk_call ?o ?ev ?w] =>
      change (sdk_call o ev w) with (of_result (o w), log (ev (heap w) (o w)) w);
      generalize (o w); intros [?a|?e]; unfold log
  | |- context [datetime_now ?s ?w] =>
      change (datetime_now s w) with (Normal (sdk_now s w), log (EvNow (sdk_now s w)) w);
      generalize (sdk_now s w); intros ?now; unfold log
  | |- context [dict_set ?l ?k ?v ?w] => rewrite dict_set_fresh
  | |- context [getenv ?k ?d ?w] => rewrite getenv_prefix
  | |- context [bool_decide ?P] => destruct (bool_decide_reflect P)
  end.

(** All the paths of a run. *)
Ltac run_script := unfold_script; repeat step; simpl_world.

(** Every outcome of a run, with the world it ends in. *)
Ltac run_cases c w' :=
  unfold main_trace;
  let Hrun := fresh "Hrun" in
  destruct (run_main _ _ _) as [c w'] eqn:Hrun; revert Hrun;
  run_script; intros [= <- <-]; simpl_world.

(** Where an event can sit in a trace. *)
Lemma occurrences_complete {A} (f : A → bool) (l acc pre post : list A) (x : A) :
  l = pre ++ x :: post → f x = true →
  (acc ++ pre, x, post) ∈ occurrences f acc l.
Proof.
  intros -> Hx. revert acc. induction pre as [|p pre IH]; intros acc; cbn.
  - rewrite Hx, app_nil_r. apply list_elem_of_here.
  - apply elem_of_app. right.
    replace (acc ++ p :: pre) with ((acc ++ [p]) ++ pre) by by rewrite <-app_assoc.
    apply IH.
Qed.

Lemma occurrence_cases {A} (f : A → bool) (l pre post : list A) (x : A) :
  l = pre ++ x :: post → f x = true → (pre, x, post) ∈ occurrences f [] l.
Proof. apply (occurrences_complete f l []). Qed.

(** Every position in the trace of [H] of an event on which [f] holds. *)
Ltac split_trace f H :=
  apply (occurrence_cases f) in H; [|done];
  cbn [occurrences f app] in H;
  repeat (let Heq := fresh "Heq" in
          apply elem_of_cons in H as [Heq|H]; [simplify_eq|]);
  try (by apply elem_of_nil in H).

(** ** The run prefix *)











Lemma snapshot_has_snapshot ev hp : snapshot ev = Some hp → has_snapshot ev = true.
Proof. by destruct ev. Qed.

Lemma credential_at_fresh (h : Heap) (d : gmap string PyVal) (v : PyVal) :
  credential_at (h ++ [ODict (<["credential" := v]> d)]) (length h) = Some v.
Proof. unfold credential_at. rewrite lookup_fresh. apply lookup_insert_eq. Qed.

Section main_properties.
Context (sdk : SDK) (env : gmap string string) (h : Heap).

(** C2: with a location outside the four allowed ones, [main] prints the
    four configuration lines and the invalid-location line and returns:
    no call leaves the process and the store is as it was.  With an
    allowed location the guard lets the run through: the next thing that
    happens is the construction of the first evaluator. *)
Theorem location_guard :
  (location (sdk_azure_config sdk)
     ∉ ["eastus2"; "francecentral"; "uksouth"; "swedencentral"] →
   (run_main sdk env h).1 = Returned ∧
   main_trace sdk env h
     = config_banner (sdk_azure_config sdk)
       ++ [EvPrint ("Invalid AZURE_LOCATION: " +:+ location (sdk_azure_config sdk)
                    +:+ ". Must be one of "
                    +:+ "['eastus2', 'francecentral', 'uksouth', 'swedencentral'].")] ∧
   Forall (λ ev, is_sdk_call ev = false) (main_trace sdk env h) ∧
   heap (run_main sdk env h).2 = h) ∧
  (location (sdk_azure_config sdk)
     ∈ ["eastus2"; "francecentral"; "uksouth"; "swedencentral"] →
   ∃ r rest,
     main_trace sdk env h
       = config_banner (sdk_azure_config sdk)
         ++ EvEvaluatorInit SexualEvaluator (length h)
              (h ++ [ODict (project_dict (sdk_azure_config sdk))]) r :: rest).
Proof.
  split; intros Hloc.
  - unfold_script. step; [|done]. simpl_world.
    split; [done|]. split; [done|]. split; [|done].
    repeat constructor.
  - run_script; first [done | eexists _, _; reflexivity].
Qed.

(** C1: when a submission bound to the cloud project raises, [main]
    prints a warning and submits once more: same name, same records, same
    evaluators, same output file, no project binding.  This is the only
    unbound submission for that output file in the whole run.  When it
    raises too, one more line is printed and [main] returns: nothing else
    happens, in particular no later phase. *)
Theorem evaluation_fallback pre kw hp e post :
  main_trace sdk env h = pre ++ EvEvaluate kw hp (Raise e) :: post →
  is_Some (azure_ai_project kw) →
  ∃ warning hp' r rest,
    post = EvPrint warning :: EvEvaluate (without_project kw) hp' r :: rest ∧
    fallback_submissions (output_path kw) (main_trace sdk env h) = [without_project kw] ∧
    (∀ e', r = Raise e' →
           ∃ line, rest = [EvPrint line] ∧ (run_main sdk env h).1 = Returned).
Proof.
  intros Hsplit Hbound. revert Hsplit.
  run_cases c w'; intros Hsplit; split_trace raising_evaluate Hsplit.
  all: try (by destruct Hbound).
  all: eexists _, _, _, _; split; [reflexivity|].
  all: split; [done|]; try done.
  all: intros e' [= ->]; eauto.
Qed.

(** C3: when a simulator call raises, [main] prints the failure line of
    that pass (the two passes have different lines) and returns, and
    nothing else happens.  When it is the baseline pass, no submission
    was made in the whole run.  When it is the jailbreak pass, the only
    submissions of the run are those of the baseline phase, all made
    before the failure, the last of them successful. *)
Theorem simulation_failure pre sim kw hp e post :
  main_trace sdk env h = pre ++ EvSimulate sim kw hp (Raise e) :: post →
  (run_main sdk env h).1 = Returned ∧
  (jailbreak kw = Some false ∧
   post = [EvPrint ("❌ Failed to run adversarial simulation (non-jailbreak): "
                    +:+ exn_str e)] ∧
   submissions (main_trace sdk env h) = []
   ∨
   jailbreak kw = Some true ∧
   post = [EvPrint ("❌ Failed to run adversarial simulation (jailbreak): "
                    +:+ exn_str e)] ∧
   submissions (main_trace sdk env h) = submissions pre ∧
   Forall (λ s, output_path s.1 = "./adversarial_test.json") (submissions pre) ∧
   ∃ kw' res, last (submissions pre) = Some (kw', Ok res)).
Proof.
  intros Hsplit. revert Hsplit.
  run_cases c w'; intros Hsplit; split_trace raising_simulate Hsplit.
  all: split; [done|].
  all: first [by left | right].
  all: repeat (split; [by repeat constructor|]); eauto.
Qed.

(** C8: the simulator is called at most twice, first with the
    adversarial-QA scenario, [callback] as target, a turn cap of 1, a
    session cap of 10 and jailbreak off, then with the same scenario,
    target and session cap, jailbreak on and no turn cap at all.  A run
    that reaches its end has made both calls. *)
Theorem simulator_arguments :
  simulate_calls (main_trace sdk env h)
    `prefix_of` [ {| scenario := ADVERSARIAL_QA;
                     target := fn_callback;
                     max_conversation_turns := Some 1;
                     max_simulation_results := Some 10;
                     jailbreak := Some false |};
                  {| scenario := ADVERSARIAL_QA;
                     target := fn_callback;
                     max_conversation_turns := None;
                     max_simulation_results := Some 10;
                     jailbreak := Some true |} ] ∧
  ((run_main sdk env h).1 = Normal () →
   length (simulate_calls (main_trace sdk env h)) = 2).
Proof.
  run_cases c w'; (split; [eexists; reflexivity | done]).
Qed.


(** C10: every call that takes or holds a reference to a dictionary
    refers to the one [azure_ai_project] dictionary [main] allocates.
    From the first submission on, every such call finds the empty string
    under [credential] in it; the baseline simulator call, made before,
    finds the default credential; the jailbreak simulator call comes
    after a submission, and so finds the empty string. *)
Theorem shared_credential pre ev post hp :
  main_trace sdk env h = pre ++ ev :: post →
  snapshot ev = Some hp →
  (∀ l, l ∈ references ev → l = length h) ∧
  (existsb is_evaluate (pre ++ [ev]) = true →
   credential_at hp (length h) = Some (VStr EmptyString)) ∧
  (∀ sim kw r, ev = EvSimulate sim kw hp r → jailbreak kw = Some false →
     credential_at hp (length h) = Some VDefaultAzureCredential) ∧
  (∀ sim kw r, ev = EvSimulate sim kw hp r → jailbreak kw = Some true →
     existsb is_evaluate pre = true).
Proof.
  intros Hsplit Hsnap. pose proof (snapshot_has_snapshot _ _ Hsnap) as Hhas.
  revert Hsplit.
  run_cases c w'; intros Hsplit; split_trace has_snapshot Hsplit.
  all: cbn [snapshot] in Hsnap; apply (inj Some) in Hsnap; subst hp.
  all: split;
    [intros l Hl; cbn in Hl;
     repeat (apply elem_of_cons in Hl as [->|Hl]; [done|]);
     by apply elem_of_nil in Hl|].
  all: split; [first [discriminate 1 | intros _; apply credential_at_fresh]|].
  all: split; intros ???; intros [= <- <- <-]; try discriminate 1; intros _;
    first [apply credential_at_fresh | reflexivity].
Qed.

End main_properties.

(** ** The theorems at sample runs *)

Lemma callback_query_is_first_message_witness :
  ∃ query r,
    trace (callback (sample_sdk "uksouth" never never) (sample_envelope ∅)
             false PyNone (sample_world sample_conversation)).2
      = [EvGetResponse query [] r] ∧
    query = "first question".
Proof.
  destruct (callback_query_is_first_message (sample_sdk "uksouth" never never)
              (sample_envelope ∅) false PyNone (sample_world sample_conversation)
              {| content := "first question"; role := "user"; context := None |}
              (tail sample_conversation))
    as (query & r & Htrace & Hquery & _); [reflexivity|].
  exists query, r. split; [exact Htrace|]. apply Hquery. reflexivity.
Defined.

Lemma callback_appends_one_assistant_message_witness :
  ∃ w',
    callback (sample_sdk "uksouth" never never) (sample_envelope ∅)
      true (PyObj "session") (sample_world sample_conversation)
      = (Normal {| res_messages := 0;
                   res_stream := true;
                   res_session_state := PyObj "session" |}, w') ∧
    heap w' !! 0
      = Some (OList (sample_conversation
                     ++ [{| content := "echo: first question";
                            role := "assistant";
                            context := Some ∅ |}])).
Proof.
  destruct (callback_appends_one_assistant_message (sample_sdk "uksouth" never never)
              (sample_envelope ∅) true (PyObj "session")
              (sample_world sample_conversation) sample_conversation
              "first question" [] {| answer := "echo: first question" |})
    as (w' & Hrun & Hlist & _); [reflexivity | vm_compute; reflexivity |].
  exists w'. split; [exact Hrun | exact Hlist].
Defined.

Lemma location_guard_witness :
  main_trace (sample_sdk "invalidzone" never never) ∅ []
    = config_banner (sample_config "invalidzone")
      ++ [EvPrint ("Invalid AZURE_LOCATION: invalidzone. Must be one of "
                   +:+ "['eastus2', 'francecentral', 'uksouth', 'swedencentral'].")] ∧
  ∃ r rest,
    main_trace (sample_sdk "uksouth" never never) ∅ []
      = config_banner (sample_config "uksouth")
        ++ EvEvaluatorInit SexualEvaluator 0
             [ODict (project_dict (sample_config "uksouth"))] r :: rest.
Proof.
  split.
  - destruct (location_guard (sample_sdk "invalidzone" never never) ∅ []) as [Hout _].
    destruct Hout as (_ & Htrace & _); [|exact Htrace].
    refine (bool_decide_unpack _ _). vm_compute. exact I.
  - destruct (location_guard (sample_sdk "uksouth" never never) ∅ []) as [_ Hin].
    apply Hin. refine (bool_decide_unpack _ _). vm_compute. exact I.
Defined.

(** Every submission fails: the baseline phase ends the run. *)
Lemma evaluation_fallback_witness :
  let tr := main_trace (sample_sdk "uksouth" never always) ∅ [] in
  tr = take 14 tr
       ++ EvEvaluate (sample_submission "240607080910 Adversarial Tests")
            (sample_store (VStr EmptyString))
            (Raise (sample_exn "evaluation failed"))
       :: drop 15 tr ∧
  ∃ warning hp' r rest,
    drop 15 tr
      = EvPrint warning
        :: EvEvaluate (without_project (sample_submission "240607080910 Adversarial Tests"))
             hp' r
        :: rest ∧
    fallback_submissions "./adversarial_test.json" tr
      = [without_project (sample_submission "240607080910 Adversarial Tests")] ∧
    (∀ e', r = Raise e' →
           ∃ line, rest = [EvPrint line] ∧
                   (run_main (sample_sdk "uksouth" never always) ∅ []).1 = Returned).
Proof.
  cbv zeta. split; [vm_compute; reflexivity|].
  apply (evaluation_fallback (sample_sdk "uksouth" never always) ∅ []
           (take 14 (main_trace (sample_sdk "uksouth" never always) ∅ []))
           (sample_submission "240607080910 Adversarial Tests")
           (sample_store (VStr EmptyString))
           (sample_exn "evaluation failed")
           (drop 15 (main_trace (sample_sdk "uksouth" never always) ∅ []))).
  - vm_compute. reflexivity.
  - exists 0. reflexivity.
Defined.

(** The jailbreak simulation fails after a successful baseline phase. *)
Lemma simulation_failure_witness :
  let tr := main_trace (sample_sdk "uksouth" is_jailbreak never) ∅ [] in
  tr = take 15 tr
       ++ EvSimulate {| sim_project := 0 |} sample_jailbreak_call
            (sample_store (VStr EmptyString))
            (Raise (sample_exn "simulator down"))
       :: drop 16 tr ∧
  drop 16 tr
    = [EvPrint "❌ Failed to run adversarial simulation (jailbreak): simulator down"] ∧
  submissions tr = submissions (take 15 tr) ∧
  ∃ kw' res, last (submissions (take 15 tr)) = Some (kw', Ok res).
Proof.
  cbv zeta. split; [vm_compute; reflexivity|].
  destruct (simulation_failure (sample_sdk "uksouth" is_jailbreak never) ∅ []
              (take 15 (main_trace (sample_sdk "uksouth" is_jailbreak never) ∅ []))
              {| sim_project := 0 |} sample_jailbreak_call
              (sample_store (VStr EmptyString))
              (sample_exn "simulator down")
              (drop 16 (main_trace (sample_sdk "uksouth" is_jailbreak never) ∅ [])))
    as [_ [(Hflag & _) | (_ & Hpost & Hsubs & _ & Hlast)]].
  - vm_compute. reflexivity.
  - discriminate Hflag.
  - split; [exact Hpost|]. split; [exact Hsubs | exact Hlast].
Defined.


(** The jailbreak simulator call of a run in which nothing fails. *)
Lemma shared_credential_witness :
  let tr := main_trace (sample_sdk "uksouth" never never) ∅ [] in
  tr = take 15 tr
       ++ EvSimulate {| sim_project := 0 |} sample_jailbreak_call
            (sample_store (VStr EmptyString)) (Ok sample_outputs)
       :: drop 16 tr ∧
  credential_at (sample_store (VStr EmptyString)) 0 = Some (VStr EmptyString).
Proof.
  cbv zeta. split; [vm_compute; reflexivity|].
  destruct (shared_credential (sample_sdk "uksouth" never never) ∅ []
              (take 15 (main_trace (sample_sdk "uksouth" never never) ∅ []))
              (EvSimulate {| sim_project := 0 |} sample_jailbreak_call
                 (sample_store (VStr EmptyString)) (Ok sample_outputs))
              (drop 16 (main_trace (sample_sdk "uksouth" never never) ∅ []))
              (sample_store (VStr EmptyString)))
    as (_ & Hcred & _).
  - vm_compute. reflexivity.
  - reflexivity.
  - apply Hcred. vm_compute. reflexivity.
Defined.

Lemma simulator_arguments_witness :
  length (simulate_calls (main_trace (sample_sdk "uksouth" never never) ∅ [])) = 2.
Proof.
  destruct (simulator_arguments (sample_sdk "uksouth" never never) ∅ []) as [_ Hboth].
  apply Hboth. vm_compute. reflexivity.
Defined.

(** * Further properties of [callback] *)

Section callback_edges.
Context (sdk : SDK).

(** X1: on an envelope whose message list is empty, [callback] raises
    [IndexError] at [messages[0]]: the chat function is not called, and
    neither the store nor the environment changes. *)
Theorem callback_empty_conversation envelope stream session_state w :
  heap w !! messages envelope = Some (OList []) →
  (callback sdk envelope stream session_state w).1 = Raised IndexError ∧
  trace (callback sdk envelope stream session_state w).2 = trace w ∧
  heap (callback sdk envelope stream session_state w).2 = heap w ∧
  environ (callback sdk envelope stream session_state w).2 = environ w.
Proof. intros Hlist. by rewrite (callback_empty _ _ _ _ _ Hlist). Qed.

(** X2: when the chat function raises, [callback] does not handle it: the
    same exception leaves [callback] right after the chat call, and the
    message list, every other object and the environment are as they
    were. *)
Theorem callback_chat_failure envelope stream session_state w ms q hist e :
  heap w !! messages envelope = Some (OList ms) →
  trace (callback sdk envelope stream session_state w).2
    = trace w ++ [EvGetResponse q hist (Raise e)] →
  callback sdk envelope stream session_state w
    = (Raised e, {| trace := trace w ++ [EvGetResponse q hist (Raise e)];
                    environ := environ w;
                    heap := heap w |}).
Proof.
  intros Hlist. destruct ms as [|m ms].
  - rewrite (callback_empty _ _ _ _ _ Hlist). cbn [snd].
    intros Htr. apply (f_equal length) in Htr.
    rewrite length_app in Htr. cbn in Htr. lia.
  - rewrite (callback_run _ _ _ _ _ _ _ Hlist). cbv zeta.
    destruct (sdk_get_response sdk w _ []) as [r|e']; cbn [snd trace log].
    + intros Htr. by apply app_inv_head in Htr.
    + intros Htr. apply app_inv_head in Htr. by injection Htr as <- <- <-.
Qed.


(** X4: whatever the envelope and the store, an invocation appends to the
    trace and otherwise leaves the world as it is, but for the one list it
    was given: the environment, the number of objects and every object
    under another reference are unchanged. *)
Theorem callback_frame envelope stream session_state w :
  trace w `prefix_of` trace (callback sdk envelope stream session_state w).2 ∧
  environ (callback sdk envelope stream session_state w).2 = environ w ∧
  length (heap (callback sdk envelope stream session_state w).2) = length (heap w) ∧
  (∀ l, l ≠ messages envelope →
        heap (callback sdk envelope stream session_state w).2 !! l = heap w !! l).
Proof.
  destruct (heap w !! messages envelope) as [[d|[|m ms]]|] eqn:Hlist.
  - unfold callback, mbind, M_bind, load_list. rewrite Hlist. cbn [snd].
    split; [reflexivity|done].
  - rewrite (callback_empty _ _ _ _ _ Hlist). cbn [snd].
    split; [reflexivity|done].
  - rewrite (callback_run _ _ _ _ _ _ _ Hlist). cbv zeta.
    destruct (sdk_get_response sdk w _ []) as [r|e];
      cbn [snd trace log environ heap].
    + split; [by eexists|]. split; [done|]. split; [apply length_insert|].
      intros l Hl. by apply list_lookup_insert_ne.
    + split; [by eexists|]. done.
  - unfold callback, mbind, M_bind, load_list. rewrite Hlist. cbn [snd].
    split; [reflexivity|done].
Qed.

End callback_edges.

(** * Further properties of [main] *)

(** The three entries [main] builds the project dictionary with stay
    under later assignments of [credential]. *)
Lemma project_entries cfg (d : gmap string PyVal) :
  d = project_dict cfg ∨
  (∃ v, d = <["credential" := v]> (project_dict cfg)) ∨
  (∃ v v', d = <["credential" := v]> (<["credential" := v']> (project_dict cfg))) →
  d !! "subscription_id" = Some (VStr (subscription_id cfg)) ∧
  d !! "resource_group_name" = Some (VStr (resource_group cfg)) ∧
  d !! "project_name" = Some (VStr (workspace_name cfg)).
Proof.
  intros [->|[[v ->]|(v & v' & ->)]]; unfold project_dict;
    repeat split;
    repeat (rewrite lookup_insert_ne by done);
    by rewrite lookup_insert_eq.
Qed.

Section main_more.
Context (sdk : SDK) (env : gmap string string) (h : Heap).

(** X6: a run never touches the objects that were in the store before it.
    It adds one object, the project dictionary, unless it stops at the
    location guard, in which case it adds none. *)
Theorem main_store_frame :
  ∃ added,
    heap (run_main sdk env h).2 = h ++ added ∧
    (location (sdk_azure_config sdk) ∉ valid_locations → added = []) ∧
    (location (sdk_azure_config sdk) ∈ valid_locations →
     ∃ d, added = [ODict d] ∧
          d !! "subscription_id" = Some (VStr (subscription_id (sdk_azure_config sdk))) ∧
          d !! "resource_group_name" = Some (VStr (resource_group (sdk_azure_config sdk))) ∧
          d !! "project_name" = Some (VStr (workspace_name (sdk_azure_config sdk)))).
Proof.
  run_cases c w'.
  1: { exists []. rewrite app_nil_r. split; [done|]. split; [done|]. by intros ?. }
  all: eexists; split; [reflexivity|]; split; [by intros ?|];
    intros _; eexists; split; [reflexivity|];
    apply (project_entries (sdk_azure_config sdk)); unfold project_dict;
    first [by left | right; left; by eexists | right; right; by eexists _, _].
Qed.

(** X7: whenever a call is handed a reference, the dictionary it finds is
    the last object of the store and holds the subscription id, the
    resource group and the project name of the configuration: assigning
    the credential, twice, never disturbs them. *)
Theorem project_identity_kept pre ev post hp :
  main_trace sdk env h = pre ++ ev :: post →
  snapshot ev = Some hp →
  ∃ d,
    hp = h ++ [ODict d] ∧
    d !! "subscription_id" = Some (VStr (subscription_id (sdk_azure_config sdk))) ∧
    d !! "resource_group_name" = Some (VStr (resource_group (sdk_azure_config sdk))) ∧
    d !! "project_name" = Some (VStr (workspace_name (sdk_azure_config sdk))).
Proof.
  intros Hsplit Hsnap. pose proof (snapshot_has_snapshot _ _ Hsnap) as Hhas.
  revert Hsplit.
  run_cases c w'; intros Hsplit; split_trace has_snapshot Hsplit.
  all: cbn [snapshot] in Hsnap; apply (inj Some) in Hsnap; subst hp.
  all: eexists; split; [reflexivity|].
  all: apply (project_entries (sdk_azure_config sdk)); unfold project_dict;
    first [by left | right; left; by eexists | right; right; by eexists _, _].
Qed.

(** X8: the constructors of the evaluators, of the credential and of the
    simulator are called outside any [try]: when one of them raises, the
    exception leaves [main], nothing is printed, and neither a simulation
    nor a submission has been or will be made. *)
Theorem constructor_failure_escapes pre ev post :
  main_trace sdk env h = pre ++ ev :: post →
  raising_constructor ev = true →
  post = [] ∧
  (∃ e, raised_by ev = Some e ∧ (run_main sdk env h).1 = Raised e) ∧
  simulate_calls (main_trace sdk env h) = [] ∧
  submissions (main_trace sdk env h) = [].
Proof.
  intros Hsplit Hev. revert Hsplit.
  run_cases c w'; intros Hsplit; split_trace raising_constructor Hsplit.
  all: split; [done|]; split; [by eexists|]; done.
Qed.

(** X9: an exception raised in one of the [try] blocks, by the simulator
    call, by the conversion to JSON lines or by [evaluate], never leaves
    [main]: the next thing that happens is a console line of its handler,
    and the run ends by a [return] or by reaching its last line. *)
Theorem handled_calls_never_escape pre ev post :
  main_trace sdk env h = pre ++ ev :: post →
  raising_in_try ev = true →
  (∃ line rest, post = EvPrint line :: rest) ∧
  ((run_main sdk env h).1 = Returned ∨ (run_main sdk env h).1 = Normal ()).
Proof.
  intros Hsplit Hev. revert Hsplit.
  run_cases c w'; intros Hsplit; split_trace raising_in_try Hsplit.
  all: split; [by eexists _, _ | first [by left | by right]].
Qed.

(** X10: the conversion of the simulator's outputs to JSON lines sits in
    the same [try] as the simulator call: when it raises, right after a
    successful simulation, [main] prints the simulation-failure line of
    that pass and returns, and makes no submission for that pass. *)
Theorem conversion_failure pre o e post :
  main_trace sdk env h = pre ++ EvToEvalQaJsonLines o (Raise e) :: post →
  (run_main sdk env h).1 = Returned ∧
  ∃ sim kw hs,
    last pre = Some (EvSimulate sim kw hs (Ok o)) ∧
    (jailbreak kw = Some false ∧
     post = [EvPrint ("❌ Failed to run adversarial simulation (non-jailbreak): "
                      +:+ exn_str e)] ∧
     submissions (main_trace sdk env h) = []
     ∨
     jailbreak kw = Some true ∧
     post = [EvPrint ("❌ Failed to run adversarial simulation (jailbreak): "
                      +:+ exn_str e)] ∧
     submissions (main_trace sdk env h) = submissions pre ∧
     Forall (λ s, output_path s.1 = "./adversarial_test.json") (submissions pre)).
Proof.
  intros Hsplit. revert Hsplit.
  run_cases c w'; intros Hsplit; split_trace raising_conversion Hsplit.
  all: split; [done|]; eexists _, _, _; split; [reflexivity|].
  all: first [by left | right; repeat (split; [by repeat constructor|]); by repeat constructor].
Qed.

(** X11: every submission carries the same four evaluators, under the keys
    [sexual], [self_harm], [hate_unfairness] and [violence], all built on
    the one project dictionary; its project binding, when it has one, is
    that dictionary; and its data is what the latest conversion returned
    for the outputs of the latest simulator call: the baseline pass for the
    baseline output file, the jailbreak pass for the jailbreak file. *)
Theorem submission_arguments pre kw hp r post :
  main_trace sdk env h = pre ++ EvEvaluate kw hp r :: post →
  evaluators kw = four_evaluators (length h) ∧
  (azure_ai_project kw = None ∨ azure_ai_project kw = Some (length h)) ∧
  ∃ skw outs,
    last (simulations pre) = Some (skw, Ok outs) ∧
    last (conversions pre) = Some (outs, Ok (data kw)) ∧
    (jailbreak skw = Some false ∧ output_path kw = "./adversarial_test.json"
     ∨ jailbreak skw = Some true ∧ output_path kw = "./adversarial_test_w_jailbreak.json").
Proof.
  intros Hsplit. revert Hsplit.
  run_cases c w'; intros Hsplit; split_trace is_evaluate Hsplit.
  all: split; [reflexivity|]; split; [first [by left | by right]|].
  all: eexists _, _; split; [reflexivity|]; split; [reflexivity|].
  all: first [by left | by right].
Qed.

(** X12: a submission without project binding is only ever made as a
    retry: the submission before it is the bound one of the same phase,
    with the same name, data, evaluators and output file, it raised, and
    the warning is the line printed in between. *)
Theorem fallback_only_after_failure pre kw hp r post :
  main_trace sdk env h = pre ++ EvEvaluate kw hp r :: post →
  azure_ai_project kw = None →
  ∃ kw0 e warning,
    last pre = Some (EvPrint warning) ∧
    last (submissions pre) = Some (kw0, Raise e) ∧
    azure_ai_project kw0 = Some (length h) ∧
    kw = without_project kw0.
Proof.
  intros Hsplit Hnone. revert Hsplit.
  run_cases c w'; intros Hsplit; split_trace is_evaluate Hsplit.
  all: try (cbn in Hnone; discriminate Hnone).
  all: eexists _, _, _; split; [reflexivity|]; split; [reflexivity|]; done.
Qed.

(** X13: a submission that succeeds, first attempt or retry, ends its
    phase.  In the baseline phase the next thing that happens is the
    jailbreak simulator call; in the jailbreak phase it is the closing
    line, which names the run prefix and the project, and [main] ends
    normally. *)
Theorem successful_submission_continues pre kw hp res post :
  main_trace sdk env h = pre ++ EvEvaluate kw hp (Ok res) :: post →
  (output_path kw = "./adversarial_test.json" ∧
   ∃ hs r rest,
     post = EvSimulate {| sim_project := length h |}
              {| scenario := ADVERSARIAL_QA;
                 target := fn_callback;
                 max_conversation_turns := None;
                 max_simulation_results := Some 10;
                 jailbreak := Some true |} hs r :: rest)
  ∨
  (output_path kw = "./adversarial_test_w_jailbreak.json" ∧
   (run_main sdk env h).1 = Normal () ∧
   ∃ now,
     clock_reads (main_trace sdk env h) = [now] ∧
     post = [EvPrint ("Check " +:+ run_prefix env now
                      +:+ " Adversarial Tests results in the 'Evaluation' section of your project: "
                      +:+ workspace_name (sdk_azure_config sdk) +:+ ".")]).
Proof.
  intros Hsplit. revert Hsplit.
  run_cases c w'; intros Hsplit; split_trace successful_evaluate Hsplit.
  all: first
    [ left; split; [reflexivity|]; eexists _, _, _; reflexivity
    | right; split; [reflexivity|]; split; [reflexivity|];
      eexists; split; reflexivity ].
Qed.

(** X14: each output file is written by at most one successful
    submission, the baseline file first; and [main] ends normally exactly
    when both have been. *)
Theorem output_written_once :
  successful_paths (main_trace sdk env h)
    `prefix_of` ["./adversarial_test.json"; "./adversarial_test_w_jailbreak.json"] ∧
  ((run_main sdk env h).1 = Normal () ↔
   successful_paths (main_trace sdk env h)
     = ["./adversarial_test.json"; "./adversarial_test_w_jailbreak.json"]).
Proof.
  run_cases c w'; (split; [eexists; reflexivity | split; done]).
Qed.

End main_more.

(** ** The further theorems at sample runs *)

Lemma callback_empty_conversation_witness :
  (callback (sample_sdk "uksouth" never never) (sample_envelope ∅)
     false PyNone (sample_world [])).1 = Raised IndexError ∧
  trace (callback (sample_sdk "uksouth" never never) (sample_envelope ∅)
           false PyNone (sample_world [])).2 = [].
Proof.
  destruct (callback_empty_conversation (sample_sdk "uksouth" never never)
              (sample_envelope ∅) false PyNone (sample_world []))
    as (Hout & Htrace & _); [reflexivity|].
  split; [exact Hout | exact Htrace].
Defined.

Lemma callback_chat_failure_witness :
  callback (broken_sdk true false false) (sample_envelope ∅)
    false PyNone (sample_world sample_conversation)
  = (Raised (sample_exn "chat down"),
     {| trace := [EvGetResponse "first question" [] (Raise (sample_exn "chat down"))];
        environ := ∅;
        heap := [OList sample_conversation] |}).
Proof.
  apply (callback_chat_failure (broken_sdk true false false) (sample_envelope ∅)
           false PyNone (sample_world sample_conversation) sample_conversation
           "first question" [] (sample_exn "chat down")).
  - reflexivity.
  - vm_compute. reflexivity.
Defined.


Lemma project_identity_kept_witness :
  let tr := main_trace (sample_sdk "uksouth" never never) ∅ [] in
  tr = take 15 tr
       ++ EvSimulate {| sim_project := 0 |} sample_jailbreak_call
            (sample_store (VStr EmptyString)) (Ok sample_outputs)
       :: drop 16 tr ∧
  ∃ d,
    sample_store (VStr EmptyString) = [ODict d] ∧
    d !! "subscription_id" = Some (VStr "sub-1") ∧
    d !! "resource_group_name" = Some (VStr "rg-1") ∧
    d !! "project_name" = Some (VStr "proj-1").
Proof.
  cbv zeta. split; [vm_compute; reflexivity|].
  apply (project_identity_kept (sample_sdk "uksouth" never never) ∅ []
           (take 15 (main_trace (sample_sdk "uksouth" never never) ∅ []))
           (EvSimulate {| sim_project := 0 |} sample_jailbreak_call
              (sample_store (VStr EmptyString)) (Ok sample_outputs))
           (drop 16 (main_trace (sample_sdk "uksouth" never never) ∅ []))
           (sample_store (VStr EmptyString))).
  - vm_compute. reflexivity.
  - reflexivity.
Defined.

(** The credential cannot be constructed. *)
Lemma constructor_failure_escapes_witness :
  let tr := main_trace (broken_sdk false true false) ∅ [] in
  tr = take 8 tr ++ EvDefaultAzureCredential (Raise (sample_exn "no credential"))
       :: drop 9 tr ∧
  drop 9 tr = [] ∧
  (∃ e, raised_by (EvDefaultAzureCredential (Raise (sample_exn "no credential"))) = Some e ∧
        (run_main (broken_sdk false true false) ∅ []).1 = Raised e) ∧
  simulate_calls tr = [] ∧
  submissions tr = [].
Proof.
  cbv zeta. split; [vm_compute; reflexivity|].
  apply (constructor_failure_escapes (broken_sdk false true false) ∅ []
           (take 8 (main_trace (broken_sdk false true false) ∅ []))
           (EvDefaultAzureCredential (Raise (sample_exn "no credential")))
           (drop 9 (main_trace (broken_sdk false true false) ∅ []))).
  - vm_compute. reflexivity.
  - reflexivity.
Defined.

(** The jailbreak simulator call fails. *)
Lemma handled_calls_never_escape_witness :
  let tr := main_trace (sample_sdk "uksouth" is_jailbreak never) ∅ [] in
  tr = take 15 tr
       ++ EvSimulate {| sim_project := 0 |} sample_jailbreak_call
            (sample_store (VStr EmptyString))
            (Raise (sample_exn "simulator down"))
       :: drop 16 tr ∧
  (∃ line rest, drop 16 tr = EvPrint line :: rest) ∧
  ((run_main (sample_sdk "uksouth" is_jailbreak never) ∅ []).1 = Returned ∨
   (run_main (sample_sdk "uksouth" is_jailbreak never) ∅ []).1 = Normal ()).
Proof.
  cbv zeta. split; [vm_compute; reflexivity|].
  apply (handled_calls_never_escape (sample_sdk "uksouth" is_jailbreak never) ∅ []
           (take 15 (main_trace (sample_sdk "uksouth" is_jailbreak never) ∅ []))
           (EvSimulate {| sim_project := 0 |} sample_jailbreak_call
              (sample_store (VStr EmptyString))
              (Raise (sample_exn "simulator down")))
           (drop 16 (main_trace (sample_sdk "uksouth" is_jailbreak never) ∅ []))).
  - vm_compute. reflexivity.
  - reflexivity.
Defined.

(** The outputs of the baseline simulation cannot be converted. *)
Lemma conversion_failure_witness :
  let tr := main_trace (broken_sdk false false true) ∅ [] in
  tr = take 11 tr
       ++ EvToEvalQaJsonLines sample_outputs (Raise (sample_exn "not convertible"))
       :: drop 12 tr ∧
  (run_main (broken_sdk false false true) ∅ []).1 = Returned ∧
  drop 12 tr
    = [EvPrint "❌ Failed to run adversarial simulation (non-jailbreak): not convertible"].
Proof.
  cbv zeta. split; [vm_compute; reflexivity|].
  destruct (conversion_failure (broken_sdk false false true) ∅ []
              (take 11 (main_trace (broken_sdk false false true) ∅ []))
              sample_outputs (sample_exn "not convertible")
              (drop 12 (main_trace (broken_sdk false false true) ∅ [])))
    as (Hout & sim & kw & hs & _ & [(_ & Hpost & _) | (_ & Hpost & _)]).
  - vm_compute. reflexivity.
  - split; [exact Hout | exact Hpost].
  - split; [exact Hout|]. vm_compute in Hpost. discriminate Hpost.
Defined.

Lemma submission_arguments_witness :
  let tr := main_trace (sample_sdk "uksouth" never never) ∅ [] in
  tr = take 14 tr
       ++ EvEvaluate (sample_submission "240607080910 Adversarial Tests")
            (sample_store (VStr EmptyString)) (Ok {| metrics := [] |})
       :: drop 15 tr ∧
  evaluators (sample_submission "240607080910 Adversarial Tests") = four_evaluators 0 ∧
  ∃ skw outs,
    last (simulations (take 14 tr)) = Some (skw, Ok outs) ∧
    last (conversions (take 14 tr)) = Some (outs, Ok "jsonl").
Proof.
  cbv zeta. split; [vm_compute; reflexivity|].
  destruct (submission_arguments (sample_sdk "uksouth" never never) ∅ []
              (take 14 (main_trace (sample_sdk "uksouth" never never) ∅ []))
              (sample_submission "240607080910 Adversarial Tests")
              (sample_store (VStr EmptyString)) (Ok {| metrics := [] |})
              (drop 15 (main_trace (sample_sdk "uksouth" never never) ∅ [])))
    as (Hevs & _ & skw & outs & Hsim & Hconv & _).
  - vm_compute. reflexivity.
  - split; [exact Hevs|]. exists skw, outs. split; [exact Hsim | exact Hconv].
Defined.

(** Every bound submission fails and every retry succeeds. *)
Lemma fallback_only_after_failure_witness :
  let tr := main_trace (sample_sdk "uksouth" never bound_to_project) ∅ [] in
  tr = take 16 tr
       ++ EvEvaluate (without_project (sample_submission "240607080910 Adversarial Tests"))
            (sample_store (VStr EmptyString)) (Ok {| metrics := [] |})
       :: drop 17 tr ∧
  ∃ kw0 e warning,
    last (take 16 tr) = Some (EvPrint warning) ∧
    last (submissions (take 16 tr)) = Some (kw0, Raise e) ∧
    azure_ai_project kw0 = Some 0 ∧
    without_project (sample_submission "240607080910 Adversarial Tests")
      = without_project kw0.
Proof.
  cbv zeta. split; [vm_compute; reflexivity|].
  apply (fallback_only_after_failure (sample_sdk "uksouth" never bound_to_project) ∅ []
           (take 16 (main_trace (sample_sdk "uksouth" never bound_to_project) ∅ []))
           (without_project (sample_submission "240607080910 Adversarial Tests"))
           (sample_store (VStr EmptyString)) (Ok {| metrics := [] |})
           (drop 17 (main_trace (sample_sdk "uksouth" never bound_to_project) ∅ []))).
  - vm_compute. reflexivity.
  - reflexivity.
Defined.

Lemma successful_submission_continues_witness :
  let tr := main_trace (sample_sdk "uksouth" never never) ∅ [] in
  tr = take 14 tr
       ++ EvEvaluate (sample_submission "240607080910 Adversarial Tests")
            (sample_store (VStr EmptyString)) (Ok {| metrics := [] |})
       :: drop 15 tr ∧
  ∃ hs r rest,
    drop 15 tr = EvSimulate {| sim_project := 0 |} sample_jailbreak_call hs r :: rest.
Proof.
  cbv zeta. split; [vm_compute; reflexivity|].
  destruct (successful_submission_continues (sample_sdk "uksouth" never never) ∅ []
              (take 14 (main_trace (sample_sdk "uksouth" never never) ∅ []))
              (sample_submission "240607080910 Adversarial Tests")
              (sample_store (VStr EmptyString)) {| metrics := [] |}
              (drop 15 (main_trace (sample_sdk "uksouth" never never) ∅ [])))
    as [(_ & Hnext) | (Hpath & _)].
  - vm_compute. reflexivity.
  - exact Hnext.
  - discriminate Hpath.
Defined.
